(** * The user endpoints of web_app/api/user.py

    A shallow embedding of the route handlers of [web_app/api/user.py] and
    the properties its specification states about them.

    The handlers are glue between the HTTP framework and collaborators that
    live elsewhere ([UserDBConnector], [PositionDBConnector],
    [TelegramUserDBConnector], [DashboardMixin.get_current_prices]) and the
    standard library's [Decimal].  The collaborators are an interface here
    ([Collaborators]); every handler is written once, over any implementation
    of it, in a small monad that threads the stores, records every call made
    to a collaborator and carries Python's exceptions. *)

From Stdlib Require Import ZArith String List Bool Lia.
From stdpp Require Import gmap strings list fin_maps.

Local Open Scope Z_scope.
Local Open Scope string_scope.

(** ** Exceptions *)

(** What an [except] clause of the module can tell about an exception raised
    by a collaborator: whether it is a [ValueError], some other subclass of
    [Exception], or outside [Exception] altogether (a cancellation, a
    keyboard interrupt). *)
Inductive exn_class : Type :=
| ValueError
| OtherException
| NonException.

(** An exception object: its class and what [str(e)] gives. *)
Record pyexn : Type := PyExn { class_of : exn_class; str : string }.

Definition isinstance_ValueError (e : pyexn) : bool :=
  match class_of e with ValueError => true | _ => false end.

(** [ValueError] derives from [Exception]. *)
Definition isinstance_Exception (e : pyexn) : bool :=
  match class_of e with NonException => false | _ => true end.

(** The result of a call to a collaborator or of a [Decimal] operation. *)
Definition result (A : Type) : Type := pyexn + A.

(** [current_prices[token]] on a missing key: [str] of a [KeyError] is the
    key's [repr]. *)
Definition KeyError (key : string) : pyexn :=
  PyExn OtherException ("'" +:+ key +:+ "'").

Definition result_bind {A B : Type} (r : result A) (k : A -> result B) : result B :=
  match r with
  | inl e => inl e
  | inr a => k a
  end.

(** How a handler ends: it returns, it raises [HTTPException(status_code,
    detail)] itself, or an exception of a collaborator leaves it unhandled. *)
Inductive outcome (A : Type) : Type :=
| Returns (a : A)
| HTTPException (status_code : Z) (detail : string)
| Propagates (e : pyexn).

Arguments Returns {A} a.
Arguments HTTPException {A} status_code detail.
Arguments Propagates {A} e.

(** ** Data *)

(** The user entity as the handlers read it. *)
Module User.
Record t : Type := Build
  { wallet_id : string;
    is_contract_deployed : bool;
    contract_address : option string }.
End User.

(** The JSON bodies the handlers return. *)
Record HasUserOpenedPositionResponse : Type :=
  { has_opened_position : bool }.
Record CheckUserResponse : Type :=
  { is_contract_deployed : bool }.
Abbreviation UpdateUserContractResponse := CheckUserResponse (only parsing).
Record GetUserContractAddressResponse : Type :=
  { contract_address : option string }.
Record DetailResponse : Type :=
  { detail : string }.
Record MessageResponse : Type :=
  { message : string }.
Record GetStatsResponse (D : Type) : Type :=
  { total_opened_amount : D;
    unique_users : Z }.
Arguments total_opened_amount {D} _.
Arguments unique_users {D} _.

(** The request bodies. *)
Record UpdateUserContractRequest : Type :=
  { req_wallet_id : string;
    req_contract_address : string }.
Record SubscribeToNotificationResponse : Type :=
  { sub_telegram_id : Z;
    sub_wallet_id : string }.

(** ** Collaborators *)

(** One entry per call a handler makes on a collaborator, with its
    arguments. *)
Inductive call : Type :=
| Call_has_opened_position (wallet_id : string)
| Call_get_user_by_wallet_id (wallet_id : string)
| Call_create_user (wallet_id : string)
| Call_update_user_contract (user : User.t) (contract_address : string)
| Call_get_contract_address_by_wallet_id (wallet_id : string)
| Call_get_unique_users_count
| Call_get_total_amounts_for_open_positions
| Call_get_current_prices
| Call_allow_notification (telegram_id : Z).

Definition is_create_user (c : call) : bool :=
  match c with Call_create_user _ => true | _ => false end.
Definition is_update_user_contract (c : call) : bool :=
  match c with Call_update_user_contract _ _ => true | _ => false end.
Definition is_allow_notification (c : call) : bool :=
  match c with Call_allow_notification _ => true | _ => false end.

(** The methods the module calls, over the state [S] of the stores they
    stand for.  [D] is [Decimal], [P] the type of a price as the price feed
    gives it.  A query reads the stores and leaves them as they are; a write
    gives the stores back, changed or not, also when it raises.  Any call may
    raise. *)
Class Collaborators (S D P : Type) : Type :=
  { position_db_has_opened_position : string -> S -> result bool;
    user_db_get_user_by_wallet_id : string -> S -> result (option User.t);
    user_db_create_user : string -> S -> result User.t * S;
    user_db_update_user_contract : User.t -> string -> S -> result unit * S;
    user_db_get_contract_address_by_wallet_id : string -> S -> result (option string);
    user_db_get_unique_users_count : S -> result Z;
    position_db_get_total_amounts_for_open_positions : S -> result (list (string * D));
    DashboardMixin_get_current_prices : S -> result (gmap string P);
    telegram_db_allow_notification : Z -> S -> result bool * S }.

(** [Decimal] under the context in force: the constant [Decimal("0")], [+],
    [*] and the constructor [Decimal(price)].  An operation may signal, which
    raises. *)
Class DecimalOps (D P : Type) : Type :=
  { Decimal_0 : D;
    Decimal_add : D -> D -> result D;
    Decimal_mul : D -> D -> result D;
    Decimal_of : P -> result D }.

(** ** The handler monad *)

(** The stores and the calls made so far, oldest first. *)
Record world (S : Type) : Type := World
  { stores : S;
    calls : list call }.
Arguments World {S} stores calls.
Arguments stores {S} _.
Arguments calls {S} _.

Definition handler (S A : Type) : Type := world S -> outcome A * world S.

Definition ret {S A : Type} (a : A) : handler S A :=
  fun w => (Returns a, w).

Definition bind {S A B : Type} (m : handler S A) (k : A -> handler S B) : handler S B :=
  fun w =>
    match m w with
    | (Returns a, w') => k a w'
    | (HTTPException c d, w') => (HTTPException c d, w')
    | (Propagates e, w') => (Propagates e, w')
    end.

Notation "'do' x <- m ; k" := (bind m (fun x => k))
  (at level 10, x name, m at level 100, k at level 200).

(** [raise HTTPException(status_code=c, detail=d)]. *)
Definition raise_HTTPException {S A : Type} (c : Z) (d : string) : handler S A :=
  fun w => (HTTPException c d, w).

(** An exception that no clause handles goes on to the caller. *)
Definition propagate {S A : Type} (e : pyexn) : handler S A :=
  fun w => (Propagates e, w).

Definition lift_result {S A : Type} (r : result A) : handler S A :=
  match r with
  | inl e => propagate e
  | inr a => ret a
  end.

(** A call that reads: it is recorded, the stores stay. *)
Definition query {S A : Type} (c : call) (q : S -> result A) : handler S A :=
  fun w =>
    let w' := World (stores w) (calls w ++ [c]) in
    match q (stores w) with
    | inl e => (Propagates e, w')
    | inr a => (Returns a, w')
    end.

(** A call that writes: it is recorded, the stores are what it leaves. *)
Definition write {S A : Type} (c : call) (f : S -> result A * S) : handler S A :=
  fun w =>
    let '(r, s') := f (stores w) in
    let w' := World s' (calls w ++ [c]) in
    match r with
    | inl e => (Propagates e, w')
    | inr a => (Returns a, w')
    end.

(** [try: body except ...: clauses].  The three [try] bodies of the module
    hold no [raise] of their own, so what reaches the clauses is an exception
    of a collaborator or of [Decimal]; the clauses get the exception object. *)
Definition try_except {S A : Type} (body : handler S A) (clauses : pyexn -> handler S A)
  : handler S A :=
  fun w =>
    match body w with
    | (Propagates e, w') => clauses e w'
    | r => r
    end.

(** Calls made by a run that started in [w] and ended in [w']: the log only
    grows, so they are what was appended. *)
Definition calls_since {S : Type} (w w' : world S) : list call :=
  drop (length (calls w)) (calls w').

Definition count_calls (p : call -> bool) (l : list call) : nat :=
  length (List.filter p l).

(** ** The handlers *)

Section Handlers.
Context {S D P : Type}.
Context `{!Collaborators S D P} `{!DecimalOps D P}.

(** [GET /api/has-user-opened-position] *)
Definition has_user_opened_position (wallet_id : string)
  : handler S HasUserOpenedPositionResponse :=
  try_except
    (do has_position <-
        query (Call_has_opened_position wallet_id)
              (position_db_has_opened_position wallet_id);
     ret {| has_opened_position := has_position |})
    (fun e =>
       if isinstance_ValueError e
       then raise_HTTPException 404 ("Invalid wallet ID format: " +:+ str e)
       else propagate e).

(** [GET /api/get-user-contract] *)
Definition get_user_contract (wallet_id : string) : handler S (option string) :=
  do user <- query (Call_get_user_by_wallet_id wallet_id)
                   (user_db_get_user_by_wallet_id wallet_id);
  match user with
  | None => raise_HTTPException 404 "User not found"
  | Some user =>
      if negb (User.is_contract_deployed user)
      then raise_HTTPException 404 "Contract not deployed"
      else ret (User.contract_address user)
  end.

(** [GET /api/check-user].  A user object is truthy, [None] is not. *)
Definition check_user (wallet_id : string) : handler S CheckUserResponse :=
  do user <- query (Call_get_user_by_wallet_id wallet_id)
                   (user_db_get_user_by_wallet_id wallet_id);
  match user with
  | Some u =>
      if negb (User.is_contract_deployed u)
      then ret {| is_contract_deployed := false |}
      else ret {| is_contract_deployed := true |}
  | None =>
      do _ <- write (Call_create_user wallet_id) (user_db_create_user wallet_id);
      ret {| is_contract_deployed := false |}
  end.

(** [POST /api/update-user-contract] *)
Definition update_user_contract (data : UpdateUserContractRequest)
  : handler S UpdateUserContractResponse :=
  do user <- query (Call_get_user_by_wallet_id (req_wallet_id data))
                   (user_db_get_user_by_wallet_id (req_wallet_id data));
  match user with
  | Some user =>
      do _ <- write (Call_update_user_contract user (req_contract_address data))
                    (user_db_update_user_contract user (req_contract_address data));
      ret {| is_contract_deployed := true |}
  | None => ret {| is_contract_deployed := false |}
  end.

(** [POST /api/subscribe-to-notification] *)
Definition subscribe_to_notification (data : SubscribeToNotificationResponse)
  : handler S DetailResponse :=
  do user <- query (Call_get_user_by_wallet_id (sub_wallet_id data))
                   (user_db_get_user_by_wallet_id (sub_wallet_id data));
  match user with
  | None => raise_HTTPException 404 "User not found"
  | Some _ =>
      do is_allowed_notification <-
         write (Call_allow_notification (sub_telegram_id data))
               (telegram_db_allow_notification (sub_telegram_id data));
      if (is_allowed_notification : bool)
      then ret {| detail := "User subscribed to notifications successfully" |}
      else raise_HTTPException 400 "Failed to subscribe user to notifications"
  end.

(** [GET /api/get-user-contract-address].  An empty string is falsy, as
    [None] is. *)
Definition get_user_contract_address (wallet_id : string)
  : handler S GetUserContractAddressResponse :=
  do address <- query (Call_get_contract_address_by_wallet_id wallet_id)
                      (user_db_get_contract_address_by_wallet_id wallet_id);
  match address with
  | Some a =>
      if String.eqb a "" then ret {| contract_address := None |}
      else ret {| contract_address := Some a |}
  | None => ret {| contract_address := None |}
  end.

(** [token in current_prices] *)
Definition contains (current_prices : gmap string P) (token : string) : bool :=
  bool_decide (is_Some (current_prices !! token)).

(** One round of the loop of [get_stats], from the running total.  The
    warning sent to the logger is not part of the model. *)
Definition add_token (current_prices : gmap string P) (total_opened_amount : D)
           (item : string * D) : result D :=
  let '(token, amount) := item in
  if negb (contains current_prices token) || negb (contains current_prices "USDC")
  then inr total_opened_amount
  else if String.eqb token "USDC"
  then Decimal_add total_opened_amount amount
  else
    match current_prices !! token with
    | None => inl (KeyError token)
    | Some usdc_price =>
        result_bind (Decimal_of usdc_price) (fun price =>
        result_bind (Decimal_mul amount price) (fun usdc_equivalent =>
        Decimal_add total_opened_amount usdc_equivalent))
    end.

(** [for token, amount in token_amounts.items(): ...], over the items in
    the order of the dict. *)
Fixpoint sum_token_amounts (current_prices : gmap string P) (total_opened_amount : D)
         (items : list (string * D)) : result D :=
  match items with
  | [] => inr total_opened_amount
  | item :: rest =>
      match add_token current_prices total_opened_amount item with
      | inl e => inl e
      | inr total => sum_token_amounts current_prices total rest
      end
  end.

(** [GET /api/get_stats] *)
Definition get_stats : handler S (GetStatsResponse D) :=
  try_except
    (do token_amounts <-
        query Call_get_total_amounts_for_open_positions
              position_db_get_total_amounts_for_open_positions;
     do current_prices <-
        query Call_get_current_prices DashboardMixin_get_current_prices;
     do total <- lift_result (sum_token_amounts current_prices Decimal_0 token_amounts);
     do users <- query Call_get_unique_users_count user_db_get_unique_users_count;
     ret {| total_opened_amount := total; unique_users := users |})
    (fun e =>
       if isinstance_Exception e
       then raise_HTTPException 500 ("Internal server error: " +:+ str e)
       else propagate e).

(** [POST /allow-notification/{telegram_id}] *)
Definition allow_notification (telegram_id : Z) : handler S MessageResponse :=
  try_except
    (do _ <- write (Call_allow_notification telegram_id)
                   (telegram_db_allow_notification telegram_id);
     ret {| message := "Notifications enabled successfully" |})
    (fun e =>
       if isinstance_ValueError e
       then raise_HTTPException 404 (str e)
       else if isinstance_Exception e
       then raise_HTTPException 500 "Internal server error"
       else propagate e).

End Handlers.

(** The three calls of [get_stats], in the order it makes them. *)
Definition get_stats_calls : list call :=
  [Call_get_total_amounts_for_open_positions;
   Call_get_current_prices;
   Call_get_unique_users_count].

(** ** The total of [get_stats], as a sum *)

Section Totals.
Context {D P : Type} `{!DecimalOps D P}.

(** The items the loop does not skip: the token has a price and so has
    "USDC". *)
Definition priced (current_prices : gmap string P) (item : string * D) : bool :=
  contains current_prices (fst item) && contains current_prices "USDC".

(** [token_amounts] without the items the loop skips. *)
Definition priced_items (current_prices : gmap string P)
           (token_amounts : list (string * D)) : list (string * D) :=
  List.filter (priced current_prices) token_amounts.

(** An amount in USDC: taken as it is for "USDC", times the token's current
    price otherwise. *)
Definition to_usdc (current_prices : gmap string P) (item : string * D) : result D :=
  if String.eqb (fst item) "USDC" then inr (snd item)
  else
    match current_prices !! fst item with
    | None => inl (KeyError (fst item))
    | Some usdc_price =>
        result_bind (Decimal_of usdc_price) (Decimal_mul (snd item))
    end.

Fixpoint result_mapM {A B : Type} (f : A -> result B) (l : list A) : result (list B) :=
  match l with
  | [] => inr []
  | a :: rest =>
      result_bind (f a) (fun b =>
      result_bind (result_mapM f rest) (fun bs => inr (b :: bs)))
  end.

(** The sum of a list of [Decimal]s, from the left, starting at [start]. *)
Fixpoint Decimal_sum (start : D) (l : list D) : result D :=
  match l with
  | [] => inr start
  | d :: rest => result_bind (Decimal_add start d) (fun t => Decimal_sum t rest)
  end.

(** The total as the specification words it: the sum over every token of
    the open-position amounts of its amount in USDC. *)
Definition total_over_every_token (current_prices : gmap string P)
           (token_amounts : list (string * D)) : result D :=
  result_bind (result_mapM (to_usdc current_prices) token_amounts)
              (Decimal_sum Decimal_0).

End Totals.

(** ** What the [except] clauses make of an exception *)

(** [get_stats]: [except Exception as e] raises HTTP 500 with [str(e)] in
    the detail. *)
Definition get_stats_except {A : Type} (e : pyexn) : outcome A :=
  if isinstance_Exception e
  then HTTPException 500 ("Internal server error: " +:+ str e)
  else Propagates e.

(** [allow_notification]: [except ValueError as e] raises HTTP 404 with
    [str(e)], [except Exception] raises HTTP 500. *)
Definition allow_notification_except {A : Type} (e : pyexn) : outcome A :=
  if isinstance_ValueError e then HTTPException 404 (str e)
  else if isinstance_Exception e then HTTPException 500 "Internal server error"
  else Propagates e.

(** [has_user_opened_position]: [except ValueError as e] raises HTTP 404. *)
Definition has_user_opened_position_except {A : Type} (e : pyexn) : outcome A :=
  if isinstance_ValueError e
  then HTTPException 404 ("Invalid wallet ID format: " +:+ str e)
  else Propagates e.

(** ** Implementations of the collaborators *)

(** [Decimal] on finite integral values, under the default context: 28
    significant digits, ties to even, exponents up to 999999.  A value is the
    integer it denotes. *)
Module IntegralDecimal.
Local Open Scope Z_scope.

Definition prec : Z := 28.
Definition Emax : Z := 999999.

Fixpoint count_digits (fuel : nat) (n : Z) : Z :=
  match fuel with
  | O => 0
  | Datatypes.S fuel' => if n =? 0 then 0 else 1 + count_digits fuel' (n / 10)
  end.

(** The number of decimal digits of [n], for [0 <= n]. *)
Definition digits (n : Z) : Z :=
  count_digits (Datatypes.S (Z.to_nat (Z.log2 n))) n.

Definition Overflow : pyexn :=
  PyExn OtherException "[<class 'decimal.Overflow'>]".

(** Rounding of an exact result to the context. *)
Definition round (z : Z) : result Z :=
  let a := Z.abs z in
  let k := digits a - prec in
  if k <=? 0 then inr z
  else
    let unit := 10 ^ k in
    let q := a / unit in
    let r := a mod unit in
    let half := 5 * 10 ^ (k - 1) in
    let q' := if r <? half then q
              else if half <? r then q + 1
              else if Z.even q then q else q + 1 in
    if Emax <? digits (q' * unit) - 1 then inl Overflow
    else inr (Z.sgn z * (q' * unit)).

#[global] Instance ops : DecimalOps Z Z :=
  { Decimal_0 := 0;
    Decimal_add := fun x y => round (x + y);
    Decimal_mul := fun x y => round (x * y);
    Decimal_of := fun p => inr p }.

(** A price the feed may leave out: [Decimal(None)] raises a [TypeError],
    [Decimal] of an [int] is that integer. *)
Definition Decimal_of_None : pyexn :=
  PyExn OtherException "conversion from NoneType to Decimal is not supported".

Definition nullable_ops : DecimalOps Z (option Z) :=
  {| Decimal_0 := 0;
     Decimal_add := fun x y => round (x + y);
     Decimal_mul := fun x y => round (x * y);
     Decimal_of := fun p => match p with
                            | Some z => inr z
                            | None => inl Decimal_of_None
                            end |}.

End IntegralDecimal.

(** Modelled from the spec: the stores behind [UserDBConnector],
    [PositionDBConnector] and [TelegramUserDBConnector] and the price feed
    behind [DashboardMixin.get_current_prices], none of which is in the
    module.  Users are keyed by wallet id and carry the deployment flag and
    the nullable address; a position belongs to a user, is open or closed and
    has a token amount; a telegram id has a notification-allowed flag. *)
Module SpecStore.

Record Position : Type :=
  { owner : string;
    token_symbol : string;
    amount : Z;
    is_open : bool }.

Record t : Type := Build
  { users : gmap string User.t;
    positions : list Position;
    is_allowed_notification : gmap Z bool;
    prices : gmap string Z }.

Definition new_user (wallet_id : string) : User.t :=
  User.Build wallet_id false None.

Definition create_user (wallet_id : string) (s : t) : result User.t * t :=
  (inr (new_user wallet_id),
   Build (<[wallet_id := new_user wallet_id]> (users s))
         (positions s) (is_allowed_notification s) (prices s)).

Definition update_user_contract (user : User.t) (address : string) (s : t)
  : result unit * t :=
  (inr tt,
   Build (<[User.wallet_id user := User.Build (User.wallet_id user) true (Some address)]>
            (users s))
         (positions s) (is_allowed_notification s) (prices s)).

Definition has_opened_position (wallet_id : string) (s : t) : bool :=
  existsb (fun p => String.eqb (owner p) wallet_id && is_open p) (positions s).

Fixpoint add_amount (token : string) (a : Z) (totals : list (string * Z))
  : list (string * Z) :=
  match totals with
  | [] => [(token, a)]
  | (t', x) :: rest =>
      if String.eqb t' token then (t', x + a) :: rest
      else (t', x) :: add_amount token a rest
  end.

Definition total_amounts (s : t) : list (string * Z) :=
  fold_left (fun totals p =>
               if is_open p then add_amount (token_symbol p) (amount p) totals
               else totals)
            (positions s) [].

Definition allow_notification (telegram_id : Z) (s : t) : result bool * t :=
  (inr true,
   Build (users s) (positions s)
         (<[telegram_id := true]> (is_allowed_notification s)) (prices s)).

#[global] Instance collaborators : Collaborators t Z Z :=
  { position_db_has_opened_position := fun w s => inr (has_opened_position w s);
    user_db_get_user_by_wallet_id := fun w s => inr (users s !! w);
    user_db_create_user := create_user;
    user_db_update_user_contract := update_user_contract;
    user_db_get_contract_address_by_wallet_id :=
      fun w s => inr (users s !! w ≫= User.contract_address);
    user_db_get_unique_users_count := fun s => inr (Z.of_nat (size (users s)));
    position_db_get_total_amounts_for_open_positions := fun s => inr (total_amounts s);
    DashboardMixin_get_current_prices := fun s => inr (prices s);
    telegram_db_allow_notification := allow_notification }.

Definition empty : t := Build ∅ [] ∅ ∅.

End SpecStore.

(** Collaborators that answer what they are told to, whatever the arguments,
    in the way the handlers are exercised with patched connectors: the state
    is the script. *)
Module Mock.

Record t : Type := Build
  { has_opened_position : result bool;
    get_user_by_wallet_id : result (option User.t);
    create_user : result User.t;
    update_user_contract : result unit;
    get_contract_address_by_wallet_id : result (option string);
    get_unique_users_count : result Z;
    get_total_amounts_for_open_positions : result (list (string * Z));
    get_current_prices : result (gmap string Z);
    allow_notification : result bool }.

#[global] Instance collaborators : Collaborators t Z Z :=
  { position_db_has_opened_position := fun _ m => has_opened_position m;
    user_db_get_user_by_wallet_id := fun _ m => get_user_by_wallet_id m;
    user_db_create_user := fun _ m => (create_user m, m);
    user_db_update_user_contract := fun _ _ m => (update_user_contract m, m);
    user_db_get_contract_address_by_wallet_id :=
      fun _ m => get_contract_address_by_wallet_id m;
    user_db_get_unique_users_count := get_unique_users_count;
    position_db_get_total_amounts_for_open_positions :=
      get_total_amounts_for_open_positions;
    DashboardMixin_get_current_prices := get_current_prices;
    telegram_db_allow_notification := fun _ m => (allow_notification m, m) }.

End Mock.

(** ** Worlds to run the handlers in *)

Module Examples.

Definition alice : string := "0x04a11ce".
Definition bob : string := "0x0b0b".

(** No user, no position, no price. *)
Definition fresh : world SpecStore.t := World SpecStore.empty [].

Definition alice_deployed : User.t := User.Build alice true (Some "0x0c0ffee").

(** Alice has deployed her contract and holds two open positions and a
    closed one; the feed prices ETH and has no entry for USDC. *)
Definition no_USDC_price : world SpecStore.t :=
  World (SpecStore.Build
           {[ alice := alice_deployed ]}
           [ {| SpecStore.owner := alice; SpecStore.token_symbol := "ETH";
                SpecStore.amount := 2; SpecStore.is_open := true |};
             {| SpecStore.owner := alice; SpecStore.token_symbol := "USDC";
                SpecStore.amount := 5; SpecStore.is_open := true |};
             {| SpecStore.owner := alice; SpecStore.token_symbol := "ETH";
                SpecStore.amount := 7; SpecStore.is_open := false |} ]
           ∅
           {[ "ETH" := 3000 ]})
        [].

(** The same stores with USDC priced, and a token the feed does not know. *)
Definition priced_USDC : world SpecStore.t :=
  World (SpecStore.Build
           {[ alice := alice_deployed ]}
           [ {| SpecStore.owner := alice; SpecStore.token_symbol := "ETH";
                SpecStore.amount := 2; SpecStore.is_open := true |};
             {| SpecStore.owner := alice; SpecStore.token_symbol := "USDC";
                SpecStore.amount := 5; SpecStore.is_open := true |};
             {| SpecStore.owner := alice; SpecStore.token_symbol := "kSTRK";
                SpecStore.amount := 11; SpecStore.is_open := true |} ]
           ∅
           {[ "ETH" := 3000; "USDC" := 1 ]})
        [].

(** No open position, one user. *)
Definition no_open_position : world SpecStore.t :=
  World (SpecStore.Build {[ alice := alice_deployed ]} [] ∅ {[ "ETH" := 3000 ]}) [].

Definition invalid_wallet : pyexn := PyExn ValueError "invalid wallet id".
Definition connection_lost : pyexn := PyExn OtherException "connection lost".

(** The position store rejects the wallet id. *)
Definition rejects_wallet : world Mock.t :=
  World (Mock.Build (inl invalid_wallet) (inr None) (inr (User.Build "" false None))
                    (inr tt) (inr None) (inr 0) (inr []) (inr ∅) (inr true))
        [].

(** The user exists and the telegram store answers [False]. *)
Definition notification_refused : world Mock.t :=
  World (Mock.Build (inr false) (inr (Some alice_deployed)) (inr alice_deployed)
                    (inr tt) (inr None) (inr 1) (inr []) (inr ∅) (inr false))
        [].

(** The user store cannot be reached. *)
Definition user_db_down : world Mock.t :=
  World (Mock.Build (inr false) (inl connection_lost) (inl connection_lost)
                    (inl connection_lost) (inl connection_lost) (inl connection_lost)
                    (inr []) (inr ∅) (inr true))
        [].

End Examples.

(** * Properties *)

(** ** Running a handler *)

Section Steps.
Context {S : Type}.

Lemma calls_since_app (w : world S) (s' : S) (l : list call) :
  calls_since w (World s' (calls w ++ l)) = l.
Proof. unfold calls_since. simpl. apply drop_app_length. Qed.

End Steps.

(** Runs a handler on a world in which hypotheses of the context say what
    each collaborator answers. *)
Ltac step_handler :=
  match goal with
  | H : ?call = _ |- context [?call] => rewrite H
  end.

Ltac run_handler :=
  unfold try_except, bind, query, write, lift_result, ret, raise_HTTPException,
    propagate;
  cbn [stores calls fst snd];
  repeat (step_handler; cbn [stores calls fst snd]);
  rewrite <- ?app_assoc; cbn [app].

Section CheckUser.
Context {S D P : Type} `{!Collaborators S D P}.

Lemma check_user_absent (wallet_id : string) (w : world S) (u : User.t) (s' : S) :
  user_db_get_user_by_wallet_id wallet_id (stores w) = inr None ->
  user_db_create_user wallet_id (stores w) = (inr u, s') ->
  check_user wallet_id w =
    (Returns {| is_contract_deployed := false |},
     World s' (calls w ++ [Call_get_user_by_wallet_id wallet_id;
                           Call_create_user wallet_id])).
Proof.
  intros Hget Hcreate. unfold check_user. now run_handler.
Qed.

Lemma check_user_present (wallet_id : string) (w : world S) (u : User.t) :
  user_db_get_user_by_wallet_id wallet_id (stores w) = inr (Some u) ->
  check_user wallet_id w =
    (Returns {| is_contract_deployed := User.is_contract_deployed u |},
     World (stores w) (calls w ++ [Call_get_user_by_wallet_id wallet_id])).
Proof.
  intros Hget. unfold check_user. run_handler.
  now destruct (User.is_contract_deployed u).
Qed.

(** C7.  [check_user] reads or creates and returns the deployment flag:
    when the user store returns no user, [create_user] is called for that
    wallet id and [is_contract_deployed=false] is returned; when it returns
    a user, nothing but the read is called and [is_contract_deployed] is
    true exactly when the user's flag is. *)
Theorem check_user_read_or_create (wallet_id : string) (w : world S) :
  (user_db_get_user_by_wallet_id wallet_id (stores w) = inr None ->
   forall (u : User.t) (s' : S),
     user_db_create_user wallet_id (stores w) = (inr u, s') ->
     check_user wallet_id w =
       (Returns {| is_contract_deployed := false |},
        World s' (calls w ++ [Call_get_user_by_wallet_id wallet_id;
                              Call_create_user wallet_id])))
  /\ (forall u : User.t,
        user_db_get_user_by_wallet_id wallet_id (stores w) = inr (Some u) ->
        check_user wallet_id w =
          (Returns {| is_contract_deployed := User.is_contract_deployed u |},
           World (stores w) (calls w ++ [Call_get_user_by_wallet_id wallet_id]))
        /\ count_calls is_create_user
             (calls_since w (snd (check_user wallet_id w))) = 0%nat).
Proof.
  split.
  - intros Hget u s' Hcreate. now apply check_user_absent with (u := u).
  - intros u Hget. rewrite (check_user_present _ _ _ Hget). split; [reflexivity|].
    cbn [snd]. now rewrite calls_since_app.
Qed.

(** C1.  [check_user] is idempotent on an unseen wallet id: when the user
    store returns no user for it, and [create_user] stores one that the
    store then returns with no contract deployed, two calls of [check_user]
    with that wallet id make exactly one [create_user] call between them
    and both return [is_contract_deployed=false]. *)
Theorem check_user_idempotent (wallet_id : string) (w : world S)
        (u u' : User.t) (s' : S) :
  user_db_get_user_by_wallet_id wallet_id (stores w) = inr None ->
  user_db_create_user wallet_id (stores w) = (inr u, s') ->
  user_db_get_user_by_wallet_id wallet_id s' = inr (Some u') ->
  User.is_contract_deployed u' = false ->
  let '(r1, w1) := check_user wallet_id w in
  let '(r2, w2) := check_user wallet_id w1 in
  r1 = Returns {| is_contract_deployed := false |}
  /\ r2 = Returns {| is_contract_deployed := false |}
  /\ count_calls is_create_user (calls_since w w2) = 1%nat
  /\ calls_since w w2 = [Call_get_user_by_wallet_id wallet_id;
                         Call_create_user wallet_id;
                         Call_get_user_by_wallet_id wallet_id]
  /\ stores w2 = s'.
Proof.
  intros Hget Hcreate Hget' Hflag.
  rewrite (check_user_absent _ _ _ _ Hget Hcreate).
  rewrite (check_user_present wallet_id (World s' _) u') by exact Hget'.
  rewrite Hflag. cbn [stores calls]. rewrite <- app_assoc. cbn [app].
  rewrite calls_since_app. repeat split; reflexivity.
Qed.

End CheckUser.

Section UserHandlers.
Context {S D P : Type} `{!Collaborators S D P}.

(** C2.  When the user store returns no user for the wallet id of the
    request, [update_user_contract] returns [is_contract_deployed=false]
    and writes nothing: the read is the only call made, the store's
    [update_user_contract] is not among the calls, and the stores are the
    ones it started from. *)
Theorem update_user_contract_missing_user (data : UpdateUserContractRequest)
        (w : world S) :
  user_db_get_user_by_wallet_id (req_wallet_id data) (stores w) = inr None ->
  let '(r, w') := update_user_contract data w in
  r = Returns {| is_contract_deployed := false |}
  /\ stores w' = stores w
  /\ calls_since w w' = [Call_get_user_by_wallet_id (req_wallet_id data)]
  /\ count_calls is_update_user_contract (calls_since w w') = 0%nat.
Proof.
  intros Hget. unfold update_user_contract. run_handler.
  rewrite calls_since_app. repeat split; reflexivity.
Qed.

(** C4.  When the user store returns no user for the wallet id of the
    request, [subscribe_to_notification] raises HTTP 404 and the telegram
    store's [allow_notification] is not called: the read is the only call
    made and the stores, the telegram store among them, are the ones it
    started from. *)
Theorem subscribe_to_notification_missing_user
        (data : SubscribeToNotificationResponse) (w : world S) :
  user_db_get_user_by_wallet_id (sub_wallet_id data) (stores w) = inr None ->
  let '(r, w') := subscribe_to_notification data w in
  r = HTTPException 404 "User not found"
  /\ stores w' = stores w
  /\ calls_since w w' = [Call_get_user_by_wallet_id (sub_wallet_id data)]
  /\ count_calls is_allow_notification (calls_since w w') = 0%nat.
Proof.
  intros Hget. unfold subscribe_to_notification. run_handler.
  rewrite calls_since_app. repeat split; reflexivity.
Qed.

(** C5.  [get_user_contract] raises HTTP 404 if and only if the user store
    returns no user for the wallet id or returns a user whose
    contract-deployment flag is false; when it returns a user whose flag is
    true, the handler returns that user's contract address. *)
Theorem get_user_contract_404_iff (wallet_id : string) (w : world S) :
  ((exists d : string,
       fst (get_user_contract wallet_id w) = HTTPException 404 d)
   <-> (user_db_get_user_by_wallet_id wallet_id (stores w) = inr None
        \/ exists u : User.t,
             user_db_get_user_by_wallet_id wallet_id (stores w) = inr (Some u)
             /\ User.is_contract_deployed u = false))
  /\ (forall u : User.t,
        user_db_get_user_by_wallet_id wallet_id (stores w) = inr (Some u) ->
        User.is_contract_deployed u = true ->
        fst (get_user_contract wallet_id w) = Returns (User.contract_address u)).
Proof.
  unfold get_user_contract, bind, query, raise_HTTPException, ret.
  destruct (user_db_get_user_by_wallet_id wallet_id (stores w))
    as [e | [u |]] eqn:Hget; cbn.
  - split.
    + split.
      * intros [d Hd]. discriminate Hd.
      * intros [Hnone | [u [Hu _]]]; discriminate.
    + intros u Hu. discriminate Hu.
  - destruct (User.is_contract_deployed u) eqn:Hflag; cbn.
    + split.
      * split.
        -- intros [d Hd]. discriminate Hd.
        -- intros [Hnone | [u' [Hu' Hf]]]; [discriminate|].
           injection Hu' as <-. congruence.
      * intros u' Hu' _. now injection Hu' as <-.
    + split.
      * split.
        -- intros _. right. exists u. now split.
        -- intros _. now exists "Contract not deployed".
      * intros u' Hu' Hf. injection Hu' as <-. congruence.
  - split.
    + split.
      * intros _. now left.
      * intros _. now exists "User not found".
    + intros u Hu. discriminate Hu.
Qed.

(** C10.  [allow_notification] returns the success message whenever the
    telegram store's [allow_notification] returns, whatever boolean it
    returns, whereas [subscribe_to_notification], for an existing user,
    raises HTTP 400 when the same call returns false. *)
Theorem allow_notification_ignores_result (w : world S) :
  (forall (telegram_id : Z) (b : bool) (s' : S),
      telegram_db_allow_notification telegram_id (stores w) = (inr b, s') ->
      allow_notification telegram_id w =
        (Returns {| message := "Notifications enabled successfully" |},
         World s' (calls w ++ [Call_allow_notification telegram_id])))
  /\ (forall (data : SubscribeToNotificationResponse) (u : User.t) (s' : S),
        user_db_get_user_by_wallet_id (sub_wallet_id data) (stores w)
          = inr (Some u) ->
        telegram_db_allow_notification (sub_telegram_id data) (stores w)
          = (inr false, s') ->
        subscribe_to_notification data w =
          (HTTPException 400 "Failed to subscribe user to notifications",
           World s' (calls w ++ [Call_get_user_by_wallet_id (sub_wallet_id data);
                                 Call_allow_notification (sub_telegram_id data)]))).
Proof.
  split.
  - intros telegram_id b s' Hallow. unfold allow_notification. now run_handler.
  - intros data u s' Hget Hallow. unfold subscribe_to_notification.
    now run_handler.
Qed.

End UserHandlers.

Section Stats.
Context {S D P : Type} `{!Collaborators S D P} `{!DecimalOps D P}.

(** When the collaborators answer and the loop ends with [total], that is
    what [get_stats] returns, next to the count of users. *)
Lemma get_stats_Returns (w : world S) (token_amounts : list (string * D))
      (current_prices : gmap string P) (total : D) (users : Z) :
  position_db_get_total_amounts_for_open_positions (stores w) = inr token_amounts ->
  DashboardMixin_get_current_prices (stores w) = inr current_prices ->
  sum_token_amounts current_prices Decimal_0 token_amounts = inr total ->
  user_db_get_unique_users_count (stores w) = inr users ->
  get_stats w =
    (Returns {| total_opened_amount := total; unique_users := users |},
     World (stores w) (calls w ++ get_stats_calls)).
Proof.
  intros Hamounts Hprices Hsum Husers. unfold get_stats. now run_handler.
Qed.

(** With no price for "USDC" a round of the loop skips its token. *)
Lemma add_token_no_USDC (current_prices : gmap string P) (total : D)
      (item : string * D) :
  current_prices !! "USDC" = None ->
  add_token current_prices total item = inr total.
Proof.
  intros Husdc. destruct item as [token amount]. cbn [add_token].
  replace (contains current_prices "USDC") with false.
  - now rewrite orb_true_r.
  - unfold contains. rewrite Husdc. symmetry. apply bool_decide_eq_false.
    now intros [x Hx].
Qed.

Lemma sum_token_amounts_no_USDC (current_prices : gmap string P)
      (token_amounts : list (string * D)) (total : D) :
  current_prices !! "USDC" = None ->
  sum_token_amounts current_prices total token_amounts = inr total.
Proof.
  intros Husdc. induction token_amounts as [| item rest IH]; [reflexivity|].
  cbn [sum_token_amounts]. now rewrite add_token_no_USDC.
Qed.

Lemma contains_lookup (current_prices : gmap string P) (token : string) :
  contains current_prices token = true ->
  exists usdc_price : P, current_prices !! token = Some usdc_price.
Proof. unfold contains. intros H. now apply bool_decide_eq_true in H. Qed.

(** The loop adds up, from the left, the amounts in USDC of the items it
    does not skip. *)
Lemma sum_token_amounts_priced (current_prices : gmap string P)
      (token_amounts : list (string * D)) :
  forall (total : D) (in_usdc : list D),
    result_mapM (to_usdc current_prices) (priced_items current_prices token_amounts)
      = inr in_usdc ->
    sum_token_amounts current_prices total token_amounts = Decimal_sum total in_usdc.
Proof.
  induction token_amounts as [| [token amount] rest IH]; intros total in_usdc Hmap.
  - cbn in Hmap. injection Hmap as <-. reflexivity.
  - cbn [sum_token_amounts add_token].
    unfold priced_items in Hmap. cbn [List.filter] in Hmap.
    unfold priced at 1 in Hmap. cbn [fst] in Hmap.
    destruct (contains current_prices token) eqn:Htoken;
      destruct (contains current_prices "USDC") eqn:Husdc; cbn [negb orb andb] in *;
      try (now apply IH).
    cbn [result_mapM] in Hmap. unfold to_usdc at 1 in Hmap. cbn [fst snd] in Hmap.
    destruct (String.eqb token "USDC") eqn:Heq.
    + cbn [result_bind] in Hmap.
      destruct (result_mapM (to_usdc current_prices)
                            (List.filter (priced current_prices) rest))
        as [e | rest_usdc] eqn:Hrest; [discriminate|].
      cbn [result_bind] in Hmap. injection Hmap as <-.
      cbn [Decimal_sum]. destruct (Decimal_add total amount) as [e | total']; [reflexivity|].
      cbn [result_bind]. now apply IH.
    + destruct (contains_lookup _ _ Htoken) as [usdc_price Hprice].
      rewrite Hprice in Hmap |- *.
      destruct (Decimal_of usdc_price) as [e | price]; [discriminate|].
      cbn [result_bind] in Hmap |- *.
      destruct (Decimal_mul amount price) as [e | usdc_equivalent]; [discriminate|].
      cbn [result_bind] in Hmap |- *.
      destruct (result_mapM (to_usdc current_prices)
                            (List.filter (priced current_prices) rest))
        as [e | rest_usdc] eqn:Hrest; [discriminate|].
      cbn [result_bind] in Hmap. injection Hmap as <-.
      cbn [Decimal_sum].
      destruct (Decimal_add total usdc_equivalent) as [e | total']; [reflexivity|].
      cbn [result_bind]. now apply IH.
Qed.

(** C3, as amended.  When the collaborators answer, [get_stats] returns as
    [total_opened_amount] the sum, over the tokens of the open-position
    amounts that have a current price while "USDC" has one too, of the
    token's amount in USDC (the amount itself for "USDC", the amount times
    the token's current price otherwise), and as [unique_users] the user
    store's count; the other tokens are skipped. *)
Theorem get_stats_sums_priced_tokens (w : world S)
        (token_amounts : list (string * D)) (current_prices : gmap string P)
        (in_usdc : list D) (total : D) (users : Z) :
  position_db_get_total_amounts_for_open_positions (stores w) = inr token_amounts ->
  DashboardMixin_get_current_prices (stores w) = inr current_prices ->
  user_db_get_unique_users_count (stores w) = inr users ->
  result_mapM (to_usdc current_prices) (priced_items current_prices token_amounts)
    = inr in_usdc ->
  Decimal_sum Decimal_0 in_usdc = inr total ->
  get_stats w =
    (Returns {| total_opened_amount := total; unique_users := users |},
     World (stores w) (calls w ++ get_stats_calls)).
Proof.
  intros Hamounts Hprices Husers Hmap Hsum.
  apply get_stats_Returns with (token_amounts := token_amounts)
                               (current_prices := current_prices); try assumption.
  now rewrite (sum_token_amounts_priced _ _ _ _ Hmap).
Qed.

(** C6.  When the position store reports no open positions, and the price
    lookup and the user count answer, [get_stats] returns
    [total_opened_amount=0] and the user store's count as [unique_users]. *)
Theorem get_stats_no_open_positions (w : world S)
        (current_prices : gmap string P) (users : Z) :
  position_db_get_total_amounts_for_open_positions (stores w) = inr [] ->
  DashboardMixin_get_current_prices (stores w) = inr current_prices ->
  user_db_get_unique_users_count (stores w) = inr users ->
  fst (get_stats w) =
    Returns {| total_opened_amount := Decimal_0; unique_users := users |}.
Proof.
  intros Hamounts Hprices Husers.
  now rewrite (get_stats_Returns w [] current_prices Decimal_0 users).
Qed.

(** C9.  When "USDC" is not a key of the current prices, every token of the
    open-position amounts is skipped, those that have a price too, and
    [get_stats] returns [total_opened_amount=0] whatever the amounts and
    the other prices are. *)
Theorem get_stats_without_USDC_price (w : world S)
        (token_amounts : list (string * D)) (current_prices : gmap string P)
        (users : Z) :
  position_db_get_total_amounts_for_open_positions (stores w) = inr token_amounts ->
  DashboardMixin_get_current_prices (stores w) = inr current_prices ->
  user_db_get_unique_users_count (stores w) = inr users ->
  current_prices !! "USDC" = None ->
  (forall (total : D) (item : string * D),
      add_token current_prices total item = inr total)
  /\ fst (get_stats w) =
       Returns {| total_opened_amount := Decimal_0; unique_users := users |}.
Proof.
  intros Hamounts Hprices Husers Husdc. split.
  - intros total item. now apply add_token_no_USDC.
  - rewrite (get_stats_Returns w token_amounts current_prices Decimal_0 users);
      auto using sum_token_amounts_no_USDC.
Qed.

End Stats.

Section Exceptions.
Context {S D P : Type} `{!Collaborators S D P} `{!DecimalOps D P}.

Lemma get_stats_catches (w : world S) (e : pyexn) :
  (position_db_get_total_amounts_for_open_positions (stores w) = inl e
   \/ (exists token_amounts,
          position_db_get_total_amounts_for_open_positions (stores w) = inr token_amounts
          /\ (DashboardMixin_get_current_prices (stores w) = inl e
              \/ exists current_prices,
                   DashboardMixin_get_current_prices (stores w) = inr current_prices
                   /\ (sum_token_amounts current_prices Decimal_0 token_amounts = inl e
                       \/ exists total,
                            sum_token_amounts current_prices Decimal_0 token_amounts
                              = inr total
                            /\ user_db_get_unique_users_count (stores w) = inl e)))) ->
  fst (get_stats w) = get_stats_except e.
Proof.
  unfold get_stats, get_stats_except.
  intros [H1 | [token_amounts [H1 [H2 | [current_prices [H2 [H3 | [total [H3 H4]]]]]]]]];
    run_handler; now destruct (isinstance_Exception e).
Qed.

Lemma allow_notification_catches (w : world S) (e : pyexn) (telegram_id : Z) (s' : S) :
  telegram_db_allow_notification telegram_id (stores w) = (inl e, s') ->
  fst (allow_notification telegram_id w) = allow_notification_except e.
Proof.
  intros H1. unfold allow_notification, allow_notification_except. run_handler.
  now destruct (isinstance_ValueError e), (isinstance_Exception e).
Qed.

Lemma has_user_opened_position_catches (w : world S) (e : pyexn) (wallet_id : string) :
  position_db_has_opened_position wallet_id (stores w) = inl e ->
  fst (has_user_opened_position wallet_id w) = has_user_opened_position_except e.
Proof.
  intros H1. unfold has_user_opened_position, has_user_opened_position_except.
  run_handler. now destruct (isinstance_ValueError e).
Qed.

(** C8, as amended.  An exception raised by a collaborator is caught at the
    outer level of three handlers and turned into an HTTP status code:
    [get_stats] turns every [Exception] into 500, [allow_notification] a
    [ValueError] into 404 and any other [Exception] into 500, and
    [has_user_opened_position] a [ValueError] into 404, letting the others
    through.  No other handler catches anything: whatever a collaborator
    raises in [get_user_contract], [check_user], [update_user_contract],
    [subscribe_to_notification] or [get_user_contract_address] leaves the
    handler as it is. *)
Theorem collaborator_exceptions_caught (w : world S) (e : pyexn) :
  ((position_db_get_total_amounts_for_open_positions (stores w) = inl e
    \/ (exists token_amounts,
           position_db_get_total_amounts_for_open_positions (stores w)
             = inr token_amounts
           /\ (DashboardMixin_get_current_prices (stores w) = inl e
               \/ exists current_prices,
                    DashboardMixin_get_current_prices (stores w) = inr current_prices
                    /\ (sum_token_amounts current_prices Decimal_0 token_amounts = inl e
                        \/ exists total,
                             sum_token_amounts current_prices Decimal_0 token_amounts
                               = inr total
                             /\ user_db_get_unique_users_count (stores w) = inl e)))) ->
   fst (get_stats w) = get_stats_except e)
  /\ (forall (telegram_id : Z) (s' : S),
        telegram_db_allow_notification telegram_id (stores w) = (inl e, s') ->
        fst (allow_notification telegram_id w) = allow_notification_except e)
  /\ (forall wallet_id : string,
        position_db_has_opened_position wallet_id (stores w) = inl e ->
        fst (has_user_opened_position wallet_id w) = has_user_opened_position_except e)
  /\ (forall wallet_id : string,
        user_db_get_user_by_wallet_id wallet_id (stores w) = inl e ->
        fst (get_user_contract wallet_id w) = Propagates e
        /\ fst (check_user wallet_id w) = Propagates e)
  /\ (forall (wallet_id : string) (s' : S),
        user_db_get_user_by_wallet_id wallet_id (stores w) = inr None ->
        user_db_create_user wallet_id (stores w) = (inl e, s') ->
        fst (check_user wallet_id w) = Propagates e)
  /\ (forall data : UpdateUserContractRequest,
        user_db_get_user_by_wallet_id (req_wallet_id data) (stores w) = inl e ->
        fst (update_user_contract data w) = Propagates e)
  /\ (forall (data : UpdateUserContractRequest) (u : User.t) (s' : S),
        user_db_get_user_by_wallet_id (req_wallet_id data) (stores w) = inr (Some u) ->
        user_db_update_user_contract u (req_contract_address data) (stores w)
          = (inl e, s') ->
        fst (update_user_contract data w) = Propagates e)
  /\ (forall data : SubscribeToNotificationResponse,
        user_db_get_user_by_wallet_id (sub_wallet_id data) (stores w) = inl e ->
        fst (subscribe_to_notification data w) = Propagates e)
  /\ (forall (data : SubscribeToNotificationResponse) (u : User.t) (s' : S),
        user_db_get_user_by_wallet_id (sub_wallet_id data) (stores w) = inr (Some u) ->
        telegram_db_allow_notification (sub_telegram_id data) (stores w)
          = (inl e, s') ->
        fst (subscribe_to_notification data w) = Propagates e)
  /\ (forall wallet_id : string,
        user_db_get_contract_address_by_wallet_id wallet_id (stores w) = inl e ->
        fst (get_user_contract_address wallet_id w) = Propagates e).
Proof.
  split; [apply get_stats_catches|].
  split; [intros; now apply allow_notification_catches with (s' := s')|].
  split; [intros; now apply has_user_opened_position_catches|].
  repeat split; intros;
    unfold get_user_contract, check_user, update_user_contract,
      subscribe_to_notification, get_user_contract_address;
    now run_handler.
Qed.

End Exceptions.

(** ** [Decimal] on integral values *)

Lemma count_digits_le (fuel : nat) :
  forall n k : Z, 0 <= k -> 0 <= n < 10 ^ k ->
                  IntegralDecimal.count_digits fuel n <= k.
Proof.
  induction fuel as [| fuel IH]; intros n k Hk Hn; cbn [IntegralDecimal.count_digits].
  - exact Hk.
  - destruct (Z.eqb_spec n 0) as [-> | Hn0]; [exact Hk|].
    assert (k <> 0) as Hk0 by (intros ->; cbn in Hn; lia).
    assert (10 ^ k = 10 * 10 ^ (k - 1)) as Hpow.
    { rewrite <- Z.pow_succ_r by lia. f_equal. lia. }
    assert (IntegralDecimal.count_digits fuel (n / 10) <= k - 1); [| lia].
    apply IH; [lia|]. split.
    + apply Z.div_pos; lia.
    + apply Z.div_lt_upper_bound; lia.
Qed.

(** Below 28 digits the context is exact: nothing is rounded and nothing
    overflows. *)
Lemma round_exact (z : Z) :
  Z.abs z < 10 ^ IntegralDecimal.prec -> IntegralDecimal.round z = inr z.
Proof.
  intros Hz. unfold IntegralDecimal.round.
  assert (IntegralDecimal.digits (Z.abs z) <= IntegralDecimal.prec) as Hd.
  { apply count_digits_le; [unfold IntegralDecimal.prec; lia|].
    split; [apply Z.abs_nonneg | exact Hz]. }
  destruct (Z.leb_spec (IntegralDecimal.digits (Z.abs z) - IntegralDecimal.prec) 0);
    [reflexivity | lia].
Qed.

Example round_half_even_down :
  IntegralDecimal.round (10 ^ 28 + 5) = inr (10 ^ 28).
Proof. vm_compute. reflexivity. Qed.

Example round_half_even_up :
  IntegralDecimal.round (10 ^ 28 + 15) = inr (10 ^ 28 + 20).
Proof. vm_compute. reflexivity. Qed.

Example round_negative :
  IntegralDecimal.round (- (10 ^ 29 + 449)) = inr (- (10 ^ 29 + 400)).
Proof. vm_compute. reflexivity. Qed.

(** ** The stores of the specification *)

(** In the stores modelled from the specification, [create_user] on an unseen
    wallet id adds exactly one record, which later reads return with no
    contract deployed. *)
Lemma SpecStore_create_user_registers (wallet_id : string) (s : SpecStore.t) :
  SpecStore.users s !! wallet_id = None ->
  user_db_get_user_by_wallet_id wallet_id (snd (SpecStore.create_user wallet_id s))
    = inr (Some (SpecStore.new_user wallet_id))
  /\ size (SpecStore.users (snd (SpecStore.create_user wallet_id s)))
     = Datatypes.S (size (SpecStore.users s)).
Proof.
  intros Hnone. cbn. split.
  - now rewrite lookup_insert_eq.
  - now apply map_size_insert_None.
Qed.

(** ** The properties on the example worlds *)

Import Examples.

Lemma check_user_idempotent_witness :
  let '(r1, w1) := check_user alice fresh in
  let '(r2, w2) := check_user alice w1 in
  r1 = Returns {| is_contract_deployed := false |}
  /\ r2 = Returns {| is_contract_deployed := false |}
  /\ count_calls is_create_user (calls_since fresh w2) = 1%nat
  /\ calls_since fresh w2 = [Call_get_user_by_wallet_id alice;
                             Call_create_user alice;
                             Call_get_user_by_wallet_id alice]
  /\ stores w2 = snd (SpecStore.create_user alice SpecStore.empty).
Proof.
  apply (check_user_idempotent alice fresh
           (SpecStore.new_user alice) (SpecStore.new_user alice));
    reflexivity.
Defined.

Lemma update_user_contract_missing_user_witness :
  let '(r, w') := update_user_contract
                    {| req_wallet_id := bob; req_contract_address := "0x0c0de" |}
                    no_USDC_price in
  r = Returns {| is_contract_deployed := false |}
  /\ stores w' = stores no_USDC_price
  /\ calls_since no_USDC_price w' = [Call_get_user_by_wallet_id bob]
  /\ count_calls is_update_user_contract (calls_since no_USDC_price w') = 0%nat.
Proof.
  apply (update_user_contract_missing_user
           {| req_wallet_id := bob; req_contract_address := "0x0c0de" |}
           no_USDC_price).
  reflexivity.
Defined.

Lemma subscribe_to_notification_missing_user_witness :
  let '(r, w') := subscribe_to_notification
                    {| sub_telegram_id := 42; sub_wallet_id := bob |}
                    no_USDC_price in
  r = HTTPException 404 "User not found"
  /\ stores w' = stores no_USDC_price
  /\ calls_since no_USDC_price w' = [Call_get_user_by_wallet_id bob]
  /\ count_calls is_allow_notification (calls_since no_USDC_price w') = 0%nat.
Proof.
  apply (subscribe_to_notification_missing_user
           {| sub_telegram_id := 42; sub_wallet_id := bob |} no_USDC_price).
  reflexivity.
Defined.

Lemma get_user_contract_404_iff_witness :
  fst (get_user_contract alice no_USDC_price) = Returns (Some "0x0c0ffee")
  /\ exists d : string, fst (get_user_contract bob no_USDC_price) = HTTPException 404 d.
Proof.
  split.
  - apply (proj2 (get_user_contract_404_iff alice no_USDC_price) alice_deployed);
      reflexivity.
  - apply (proj1 (get_user_contract_404_iff bob no_USDC_price)).
    left. reflexivity.
Defined.

Lemma check_user_read_or_create_witness :
  check_user alice fresh
  = (Returns {| is_contract_deployed := false |},
     World (snd (SpecStore.create_user alice SpecStore.empty))
           [Call_get_user_by_wallet_id alice; Call_create_user alice])
  /\ check_user alice no_USDC_price
     = (Returns {| is_contract_deployed := true |},
        World (stores no_USDC_price) [Call_get_user_by_wallet_id alice])
  /\ count_calls is_create_user
       (calls_since no_USDC_price (snd (check_user alice no_USDC_price))) = 0%nat.
Proof.
  split.
  - apply (proj1 (check_user_read_or_create alice fresh))
      with (u := SpecStore.new_user alice); reflexivity.
  - apply (proj2 (check_user_read_or_create alice no_USDC_price) alice_deployed).
    reflexivity.
Defined.

Lemma get_stats_no_open_positions_witness :
  fst (get_stats no_open_position)
  = Returns {| total_opened_amount := 0; unique_users := 1 |}.
Proof.
  change 0 with (Decimal_0 (D := Z)).
  apply (get_stats_no_open_positions no_open_position {[ "ETH" := 3000 ]} 1);
    reflexivity.
Defined.

Lemma get_stats_without_USDC_price_witness :
  (forall (total : Z) (item : string * Z),
      add_token {[ "ETH" := 3000 ]} total item = inr total)
  /\ fst (get_stats no_USDC_price)
     = Returns {| total_opened_amount := 0; unique_users := 1 |}.
Proof.
  change 0 with (Decimal_0 (D := Z)).
  apply (get_stats_without_USDC_price no_USDC_price
           [("ETH", 2); ("USDC", 5)] {[ "ETH" := 3000 ]} 1);
    reflexivity.
Defined.

Lemma get_stats_sums_priced_tokens_witness :
  get_stats priced_USDC
  = (Returns {| total_opened_amount := 6005; unique_users := 1 |},
     World (stores priced_USDC) get_stats_calls).
Proof.
  apply (get_stats_sums_priced_tokens priced_USDC
           [("ETH", 2); ("USDC", 5); ("kSTRK", 11)]
           {[ "ETH" := 3000; "USDC" := 1 ]} [6000; 5] 6005 1);
    reflexivity.
Defined.

Lemma allow_notification_ignores_result_witness :
  allow_notification 42 notification_refused
  = (Returns {| message := "Notifications enabled successfully" |},
     World (stores notification_refused) [Call_allow_notification 42])
  /\ subscribe_to_notification
       {| sub_telegram_id := 42; sub_wallet_id := alice |} notification_refused
     = (HTTPException 400 "Failed to subscribe user to notifications",
        World (stores notification_refused)
              [Call_get_user_by_wallet_id alice; Call_allow_notification 42]).
Proof.
  split.
  - apply (proj1 (allow_notification_ignores_result notification_refused))
      with (b := false). reflexivity.
  - apply (proj2 (allow_notification_ignores_result notification_refused)
             {| sub_telegram_id := 42; sub_wallet_id := alice |} alice_deployed);
      reflexivity.
Defined.

Lemma collaborator_exceptions_caught_witness :
  fst (has_user_opened_position "wallet" rejects_wallet)
  = HTTPException 404 "Invalid wallet ID format: invalid wallet id"
  /\ fst (check_user alice user_db_down) = Propagates connection_lost
  /\ fst (get_stats (D := Z) user_db_down)
     = HTTPException 500 "Internal server error: connection lost".
Proof.
  pose proof (collaborator_exceptions_caught rejects_wallet invalid_wallet) as Hv.
  pose proof (collaborator_exceptions_caught user_db_down connection_lost) as Hc.
  split; [| split].
  - apply Hv. reflexivity.
  - apply Hc. reflexivity.
  - apply Hc. right. exists []. split; [reflexivity|]. right. exists ∅.
    split; [reflexivity|]. right. exists 0. split; reflexivity.
Defined.

(** C3, as stated, fails: with ETH priced and no price for USDC, the sum over
    every token of the open positions (2 ETH at 3000 and 5 USDC) is 6005,
    and [get_stats] returns 0. *)
Lemma get_stats_total_is_not_the_sum_over_every_token :
  position_db_get_total_amounts_for_open_positions (stores no_USDC_price)
    = inr [("ETH", 2); ("USDC", 5)]
  /\ total_over_every_token {[ "ETH" := 3000 ]} [("ETH", 2); ("USDC", 5)] = inr 6005
  /\ fst (get_stats no_USDC_price)
     = Returns {| total_opened_amount := 0; unique_users := 1 |}
  /\ fst (get_stats no_USDC_price)
     <> Returns {| total_opened_amount := 6005; unique_users := 1 |}.
Proof.
  repeat split; try reflexivity. discriminate.
Qed.

(** C8, as stated, fails: [has_user_opened_position] is a third handler that
    catches a collaborator's exception.  When the position store raises a
    [ValueError], the handler raises HTTP 404 in its place. *)
Lemma has_user_opened_position_catches_ValueError :
  position_db_has_opened_position "wallet" (stores rejects_wallet) = inl invalid_wallet
  /\ fst (has_user_opened_position "wallet" rejects_wallet)
     = HTTPException 404 "Invalid wallet ID format: invalid wallet id"
  /\ fst (has_user_opened_position "wallet" rejects_wallet)
     <> Propagates invalid_wallet.
Proof.
  repeat split; try reflexivity. discriminate.
Qed.

(** * Further properties of the handlers *)

(** ** The loop of [get_stats] *)

Section StatsLoop.
Context {D P : Type} `{!DecimalOps D P}.

Lemma add_token_skips_unpriced (current_prices : gmap string P) (total : D)
      (item : string * D) :
  priced current_prices item = false ->
  add_token current_prices total item = inr total.
Proof.
  destruct item as [token amount]. unfold priced, add_token. cbn [fst].
  now destruct (contains current_prices token), (contains current_prices "USDC").
Qed.

(** X1.  The loop of [get_stats] over the open-position amounts ends as the
    loop over the priced items alone does, in the total it reaches and in
    the exception it raises: an item it skips changes nothing, wherever it
    stands in the dict. *)
Theorem sum_token_amounts_priced_items (current_prices : gmap string P)
        (token_amounts : list (string * D)) (total : D) :
  sum_token_amounts current_prices total token_amounts
  = sum_token_amounts current_prices total (priced_items current_prices token_amounts).
Proof.
  revert total. induction token_amounts as [| item rest IH]; intros total; [reflexivity|].
  unfold priced_items. cbn [List.filter sum_token_amounts].
  destruct (priced current_prices item) eqn:Hpriced.
  - cbn [sum_token_amounts].
    destruct (add_token current_prices total item) as [e | total']; [reflexivity|].
    apply IH.
  - rewrite add_token_skips_unpriced by exact Hpriced. apply IH.
Qed.

(** X2.  The loop goes through the dict from the left: over the items of two
    lists one after the other it is the loop over the first, and then, from
    the total that one reached, the loop over the second; an exception in
    the first part ends it there. *)
Theorem sum_token_amounts_app (current_prices : gmap string P)
        (first_items more_items : list (string * D)) (total : D) :
  sum_token_amounts current_prices total (first_items ++ more_items)
  = result_bind (sum_token_amounts current_prices total first_items)
                (fun t => sum_token_amounts current_prices t more_items).
Proof.
  revert total. induction first_items as [| item rest IH]; intros total; [reflexivity|].
  cbn [app sum_token_amounts].
  destruct (add_token current_prices total item) as [e | total']; [reflexivity|].
  apply IH.
Qed.

Lemma contains_insert_eq (current_prices : gmap string P) (token : string) (p : P) :
  contains (<[token := p]> current_prices) token = true.
Proof.
  unfold contains. apply bool_decide_eq_true. rewrite lookup_insert_eq. now eexists.
Qed.

Lemma contains_insert_ne (current_prices : gmap string P) (token other : string) (p : P) :
  token <> other ->
  contains (<[token := p]> current_prices) other = contains current_prices other.
Proof.
  intros Hne. unfold contains. now rewrite lookup_insert_ne.
Qed.

Lemma add_token_USDC_price (current_prices : gmap string P) (p p' : P) (total : D)
      (item : string * D) :
  add_token (<["USDC" := p]> current_prices) total item
  = add_token (<["USDC" := p']> current_prices) total item.
Proof.
  destruct item as [token amount]. cbn [add_token].
  rewrite !contains_insert_eq.
  destruct (String.eqb_spec token "USDC") as [-> | Hne].
  - now rewrite !contains_insert_eq.
  - rewrite !contains_insert_ne by congruence.
    now rewrite !lookup_insert_ne by congruence.
Qed.

(** X3.  The price of "USDC" is never read: once "USDC" has a price, the
    loop reaches the same total, or raises the same exception, whatever that
    price is. *)
Theorem sum_token_amounts_USDC_price (current_prices : gmap string P) (p p' : P)
        (token_amounts : list (string * D)) (total : D) :
  sum_token_amounts (<["USDC" := p]> current_prices) total token_amounts
  = sum_token_amounts (<["USDC" := p']> current_prices) total token_amounts.
Proof.
  revert total. induction token_amounts as [| item rest IH]; intros total; [reflexivity|].
  cbn [sum_token_amounts]. rewrite (add_token_USDC_price current_prices p p').
  destruct (add_token (<["USDC" := p']> current_prices) total item); [reflexivity|].
  apply IH.
Qed.

(** X4.  A price for a token that no open position holds changes nothing:
    adding it to the current prices, or changing it, leaves the loop's
    result as it was, unless the token is "USDC", whose presence every
    round tests. *)
Theorem sum_token_amounts_other_price (current_prices : gmap string P)
        (token : string) (p : P) (token_amounts : list (string * D)) (total : D) :
  token <> "USDC" ->
  token ∉ map fst token_amounts ->
  sum_token_amounts (<[token := p]> current_prices) total token_amounts
  = sum_token_amounts current_prices total token_amounts.
Proof.
  intros Husdc. revert total.
  induction token_amounts as [| [held amount] rest IH]; intros total Hnotin; [reflexivity|].
  cbn [map fst] in Hnotin. apply not_elem_of_cons in Hnotin as [Hne Hrest].
  cbn [sum_token_amounts add_token].
  rewrite !contains_insert_ne by congruence.
  rewrite lookup_insert_ne by congruence.
  destruct (negb (contains current_prices held) || negb (contains current_prices "USDC"));
    [now apply IH|].
  destruct (String.eqb held "USDC").
  - destruct (Decimal_add total amount); [reflexivity | now apply IH].
  - destruct (current_prices !! held) as [usdc_price |]; [| reflexivity].
    destruct (result_bind _ _); [reflexivity | now apply IH].
Qed.

(** X5.  [current_prices[token]] never raises: the guard of the loop has
    found the key before it is read.  When a round raises, the exception is
    one that [Decimal] raised, in the addition for "USDC" and in the
    conversion, the product or the addition for a token with a price. *)
Theorem add_token_raises_in_Decimal (current_prices : gmap string P) (total : D)
        (token : string) (amount : D) (e : pyexn) :
  add_token current_prices total (token, amount) = inl e ->
  (token = "USDC" /\ Decimal_add total amount = inl e)
  \/ (exists usdc_price : P,
         token <> "USDC"
         /\ current_prices !! token = Some usdc_price
         /\ (Decimal_of usdc_price = inl e
             \/ exists price : D,
                  Decimal_of usdc_price = inr price
                  /\ (Decimal_mul amount price = inl e
                      \/ exists usdc_equivalent : D,
                           Decimal_mul amount price = inr usdc_equivalent
                           /\ Decimal_add total usdc_equivalent = inl e))).
Proof.
  cbn [add_token]. intros Hraise.
  destruct (contains current_prices token) eqn:Htoken; cbn [negb orb] in Hraise;
    [| discriminate].
  destruct (contains current_prices "USDC"); cbn [negb] in Hraise; [| discriminate].
  destruct (String.eqb_spec token "USDC") as [-> | Hne]; [now left|].
  right. destruct (contains_lookup _ _ Htoken) as [usdc_price Hprice].
  rewrite Hprice in Hraise. exists usdc_price. repeat split; [exact Hne | exact Hprice |].
  destruct (Decimal_of usdc_price) as [e' | price]; cbn [result_bind] in Hraise.
  - left. exact Hraise.
  - right. exists price. split; [reflexivity|].
    destruct (Decimal_mul amount price) as [e' | usdc_equivalent];
      cbn [result_bind] in Hraise.
    + left. exact Hraise.
    + right. now exists usdc_equivalent.
Qed.

(** X6.  When every token of the open-position amounts has a current price
    and "USDC" has one, nothing is skipped: the loop reaches the sum over
    every token of its amount in USDC, whenever that sum raises nothing. *)
Theorem sum_token_amounts_all_priced (current_prices : gmap string P)
        (token_amounts : list (string * D)) (total : D) :
  Forall (fun item => priced current_prices item = true) token_amounts ->
  total_over_every_token current_prices token_amounts = inr total ->
  sum_token_amounts current_prices Decimal_0 token_amounts = inr total.
Proof.
  intros Hall Htotal. unfold total_over_every_token in Htotal.
  destruct (result_mapM (to_usdc current_prices) token_amounts) as [e | in_usdc] eqn:Hmap;
    [discriminate|].
  cbn [result_bind] in Htotal. rewrite <- Htotal.
  apply sum_token_amounts_priced. unfold priced_items.
  replace (List.filter (priced current_prices) token_amounts) with token_amounts;
    [exact Hmap|].
  clear Hmap Htotal. induction Hall as [| item rest Hitem _ IH]; [reflexivity|].
  cbn [List.filter]. rewrite Hitem. now f_equal.
Qed.

End StatsLoop.

(** ** Every handler, in every world *)

#[local] Set Warnings "-clear-no-such-hyp".

(** Splits a run of a handler by what each collaborator it calls answers. *)
Ltac handler_cases :=
  unfold try_except, bind, query, write, lift_result, ret, raise_HTTPException,
    propagate;
  cbn [stores calls fst snd];
  repeat (match goal with
          | |- context [match ?x with _ => _ end] =>
              lazymatch x with
              | context [match _ with _ => _ end] => fail
              | _ => destruct x eqn:?
              end
          end; cbn [stores calls fst snd] in *);
  rewrite <- ?app_assoc; cbn [app]; rewrite ?calls_since_app.

Ltac close_cases :=
  repeat match goal with
         | H : negb _ = true |- _ => apply negb_true_iff in H
         | H : negb _ = false |- _ => apply negb_false_iff in H
         | u : unit |- _ => destruct u
         end;
  naive_solver congruence.

Section EveryWorld.
Context {S D P : Type} `{!Collaborators S D P} `{!DecimalOps D P}.

(** X7.  [check_user], [update_user_contract] and
    [get_user_contract_address] raise no HTTP error of their own, whatever
    the collaborators answer: they return, or an exception of the user store
    goes through them. *)
Theorem handlers_raising_no_HTTP_error (w : world S) (c : Z) (d : string) :
  (forall wallet_id : string,
      fst (check_user wallet_id w) <> HTTPException c d
      /\ fst (get_user_contract_address wallet_id w) <> HTTPException c d)
  /\ (forall data : UpdateUserContractRequest,
        fst (update_user_contract data w) <> HTTPException c d).
Proof.
  repeat split; intros;
    unfold check_user, get_user_contract_address, update_user_contract;
    handler_cases; close_cases.
Qed.

(** X8.  The only HTTP error of [get_user_contract] is 404, and the only
    ones of [subscribe_to_notification] are 404 and 400, the latter raised
    only after the telegram store was called and answered false. *)
Theorem user_checks_status_codes (w : world S) (c : Z) (d : string) :
  (forall wallet_id : string,
      fst (get_user_contract wallet_id w) = HTTPException c d -> c = 404)
  /\ (forall data : SubscribeToNotificationResponse,
        fst (subscribe_to_notification data w) = HTTPException c d ->
        c = 404
        \/ (c = 400
            /\ exists s' : S,
                 telegram_db_allow_notification (sub_telegram_id data) (stores w)
                 = (inr false, s'))).
Proof.
  repeat split; intros;
    match goal with H : fst _ = _ |- _ => revert H end;
    unfold get_user_contract, subscribe_to_notification;
    handler_cases; close_cases.
Qed.

(** X9.  The three handlers with a [try] end in one of few ways, whatever
    the collaborators and [Decimal] do.  [get_stats] raises no HTTP error but
    500 and lets no [Exception] through; [allow_notification] raises none but
    404 and 500 and lets no [Exception] through; [has_user_opened_position]
    raises none but 404 and lets no [ValueError] through. *)
Theorem try_handlers_outcomes (w : world S) :
  ((forall (c : Z) (d : string), fst (get_stats w) = HTTPException c d -> c = 500)
   /\ (forall e : pyexn,
         fst (get_stats w) = Propagates e -> isinstance_Exception e = false))
  /\ (forall telegram_id : Z,
        (forall (c : Z) (d : string),
            fst (allow_notification telegram_id w) = HTTPException c d ->
            c = 404 \/ c = 500)
        /\ (forall e : pyexn,
              fst (allow_notification telegram_id w) = Propagates e ->
              isinstance_Exception e = false))
  /\ (forall wallet_id : string,
        (forall (c : Z) (d : string),
            fst (has_user_opened_position wallet_id w) = HTTPException c d ->
            c = 404)
        /\ (forall e : pyexn,
              fst (has_user_opened_position wallet_id w) = Propagates e ->
              isinstance_ValueError e = false)).
Proof.
  repeat split; intros;
    match goal with H : fst _ = _ |- _ => revert H end;
    unfold get_stats, allow_notification, has_user_opened_position;
    handler_cases; close_cases.
Qed.

(** X10.  [has_user_opened_position] makes one call, the read of the position
    store for the wallet id, leaves the stores as they are, and returns a
    body exactly when the store answers, with the store's boolean in it. *)
Theorem has_user_opened_position_answer (wallet_id : string) (w : world S) :
  calls_since w (snd (has_user_opened_position wallet_id w))
  = [Call_has_opened_position wallet_id]
  /\ stores (snd (has_user_opened_position wallet_id w)) = stores w
  /\ forall b : bool,
       fst (has_user_opened_position wallet_id w)
       = Returns {| has_opened_position := b |}
       <-> position_db_has_opened_position wallet_id (stores w) = inr b.
Proof.
  unfold has_user_opened_position. handler_cases; close_cases.
Qed.

(** X11.  The detail of the 404 of [get_user_contract] tells the cause: it is
    "User not found" exactly when the user store returns no user, and
    "Contract not deployed" exactly when it returns a user whose flag is
    false.  The handler makes the one read and nothing else. *)
Theorem get_user_contract_detail (wallet_id : string) (w : world S) :
  (fst (get_user_contract wallet_id w) = HTTPException 404 "User not found"
   <-> user_db_get_user_by_wallet_id wallet_id (stores w) = inr None)
  /\ (fst (get_user_contract wallet_id w) = HTTPException 404 "Contract not deployed"
      <-> exists u : User.t,
            user_db_get_user_by_wallet_id wallet_id (stores w) = inr (Some u)
            /\ User.is_contract_deployed u = false)
  /\ calls_since w (snd (get_user_contract wallet_id w))
     = [Call_get_user_by_wallet_id wallet_id].
Proof.
  unfold get_user_contract. handler_cases; close_cases.
Qed.

(** X12.  [check_user] calls [create_user], once and with the wallet id it
    was given, exactly when the read returns no user; it never calls
    [update_user_contract], so it cannot mark a contract as deployed; and it
    answers true exactly when the read returns a user whose flag is true. *)
Theorem check_user_calls (wallet_id : string) (w : world S) :
  calls_since w (snd (check_user wallet_id w))
  = match user_db_get_user_by_wallet_id wallet_id (stores w) with
    | inr None => [Call_get_user_by_wallet_id wallet_id; Call_create_user wallet_id]
    | _ => [Call_get_user_by_wallet_id wallet_id]
    end
  /\ count_calls is_update_user_contract
       (calls_since w (snd (check_user wallet_id w))) = 0%nat
  /\ (fst (check_user wallet_id w) = Returns {| is_contract_deployed := true |}
      <-> exists u : User.t,
            user_db_get_user_by_wallet_id wallet_id (stores w) = inr (Some u)
            /\ User.is_contract_deployed u = true).
Proof.
  unfold check_user. handler_cases; close_cases.
Qed.

(** X13.  [update_user_contract] calls the store's [update_user_contract]
    exactly when the read returns a user, with that user and the address of
    the request; it answers true exactly when that write returns, whatever
    the user's flag was before, and without reading the user again. *)
Theorem update_user_contract_calls (data : UpdateUserContractRequest) (w : world S) :
  calls_since w (snd (update_user_contract data w))
  = match user_db_get_user_by_wallet_id (req_wallet_id data) (stores w) with
    | inr (Some u) =>
        [Call_get_user_by_wallet_id (req_wallet_id data);
         Call_update_user_contract u (req_contract_address data)]
    | _ => [Call_get_user_by_wallet_id (req_wallet_id data)]
    end
  /\ (fst (update_user_contract data w) = Returns {| is_contract_deployed := true |}
      <-> exists (u : User.t) (s' : S),
            user_db_get_user_by_wallet_id (req_wallet_id data) (stores w)
              = inr (Some u)
            /\ user_db_update_user_contract u (req_contract_address data) (stores w)
               = (inr tt, s')).
Proof.
  unfold update_user_contract. handler_cases; close_cases.
Qed.

(** X14.  [subscribe_to_notification] calls the telegram store's
    [allow_notification], with the telegram id of the request, exactly when
    the read returns a user, and it answers with the success detail exactly
    when that call returns true. *)
Theorem subscribe_to_notification_calls (data : SubscribeToNotificationResponse)
        (w : world S) :
  calls_since w (snd (subscribe_to_notification data w))
  = match user_db_get_user_by_wallet_id (sub_wallet_id data) (stores w) with
    | inr (Some _) =>
        [Call_get_user_by_wallet_id (sub_wallet_id data);
         Call_allow_notification (sub_telegram_id data)]
    | _ => [Call_get_user_by_wallet_id (sub_wallet_id data)]
    end
  /\ (fst (subscribe_to_notification data w)
      = Returns {| detail := "User subscribed to notifications successfully" |}
      <-> exists (u : User.t) (s' : S),
            user_db_get_user_by_wallet_id (sub_wallet_id data) (stores w)
              = inr (Some u)
            /\ telegram_db_allow_notification (sub_telegram_id data) (stores w)
               = (inr true, s')).
Proof.
  unfold subscribe_to_notification. handler_cases; close_cases.
Qed.

(** X15.  [allow_notification] makes one call, the telegram store's
    [allow_notification] for the telegram id, and never looks a user up; it
    answers with the success message exactly when that call returns, and the
    stores are then the ones the call left. *)
Theorem allow_notification_calls (telegram_id : Z) (w : world S) :
  calls_since w (snd (allow_notification telegram_id w))
  = [Call_allow_notification telegram_id]
  /\ stores (snd (allow_notification telegram_id w))
     = snd (telegram_db_allow_notification telegram_id (stores w))
  /\ (fst (allow_notification telegram_id w)
      = Returns {| message := "Notifications enabled successfully" |}
      <-> exists b : bool,
            fst (telegram_db_allow_notification telegram_id (stores w)) = inr b).
Proof.
  unfold allow_notification. handler_cases; close_cases.
Qed.

(** X16.  [get_user_contract_address] makes the one read and raises nothing
    of its own.  The address in its body is never the empty string: the body
    carries an address exactly when the store returns a non-empty one, and
    [None] when the store returns [None] or the empty string. *)
Theorem get_user_contract_address_answer (wallet_id : string) (w : world S) :
  calls_since w (snd (get_user_contract_address wallet_id w))
  = [Call_get_contract_address_by_wallet_id wallet_id]
  /\ fst (get_user_contract_address wallet_id w)
     <> Returns {| contract_address := Some "" |}
  /\ (forall a : string,
        fst (get_user_contract_address wallet_id w)
        = Returns {| contract_address := Some a |}
        <-> user_db_get_contract_address_by_wallet_id wallet_id (stores w)
            = inr (Some a) /\ a <> "")
  /\ (fst (get_user_contract_address wallet_id w)
      = Returns {| contract_address := None |}
      <-> user_db_get_contract_address_by_wallet_id wallet_id (stores w) = inr None
          \/ user_db_get_contract_address_by_wallet_id wallet_id (stores w)
             = inr (Some "")).
Proof.
  unfold get_user_contract_address. handler_cases;
    repeat match goal with
           | H : String.eqb _ _ = true |- _ => apply String.eqb_eq in H
           | H : String.eqb _ _ = false |- _ => apply String.eqb_neq in H
           end;
    close_cases.
Qed.

(** X17.  [get_stats] asks in a fixed order, the open-position amounts, the
    current prices, then the count of users, and stops at the first failure:
    the calls it makes are a beginning of that list, whatever happens, and
    the users are counted exactly when the amounts and the prices were given
    and the loop over them raised nothing. *)
Theorem get_stats_calls_in_order (w : world S) :
  calls_since w (snd (get_stats w)) `prefix_of` get_stats_calls
  /\ (Call_get_unique_users_count ∈ calls_since w (snd (get_stats w))
      <-> exists (token_amounts : list (string * D)) (current_prices : gmap string P)
                 (total : D),
            position_db_get_total_amounts_for_open_positions (stores w)
              = inr token_amounts
            /\ DashboardMixin_get_current_prices (stores w) = inr current_prices
            /\ sum_token_amounts current_prices Decimal_0 token_amounts = inr total).
Proof.
  unfold get_stats, get_stats_calls. handler_cases;
    (split;
     [ first [ now exists []
             | now exists [Call_get_unique_users_count]
             | now exists [Call_get_current_prices; Call_get_unique_users_count] ]
     | rewrite ?elem_of_cons, ?elem_of_nil; close_cases ]).
Qed.

(** X18.  [get_stats] returns a body only when everything went well: the
    position store, the price lookup and the user store answered, the loop
    over the amounts reached the total of the body, and the count of the
    body is the user store's. *)
Theorem get_stats_Returns_only (w : world S) (response : GetStatsResponse D) :
  fst (get_stats w) = Returns response <->
  exists (token_amounts : list (string * D)) (current_prices : gmap string P),
    position_db_get_total_amounts_for_open_positions (stores w) = inr token_amounts
    /\ DashboardMixin_get_current_prices (stores w) = inr current_prices
    /\ sum_token_amounts current_prices Decimal_0 token_amounts
       = inr (total_opened_amount response)
    /\ user_db_get_unique_users_count (stores w) = inr (unique_users response).
Proof.
  destruct response as [total users]. unfold get_stats. handler_cases; close_cases.
Qed.

(** X19.  [subscribe_to_notification] does to the stores what
    [allow_notification] does for the same telegram id when the read returns
    a user, and nothing otherwise: the user check is all that sets the two
    apart in what they write. *)
Theorem subscribe_writes_as_allow_notification
        (data : SubscribeToNotificationResponse) (w : world S) :
  stores (snd (subscribe_to_notification data w))
  = match user_db_get_user_by_wallet_id (sub_wallet_id data) (stores w) with
    | inr (Some _) => stores (snd (allow_notification (sub_telegram_id data) w))
    | _ => stores w
    end.
Proof.
  unfold subscribe_to_notification, allow_notification. handler_cases; close_cases.
Qed.

(** X20.  [check_user] and [get_user_contract] agree on one world: the first
    answers that the contract is deployed exactly when the second returns
    the user's address instead of raising, and when it answers that the
    contract is not deployed, or creates the user, the second does not
    return. *)
Theorem check_user_agrees_with_get_user_contract (wallet_id : string) (w : world S) :
  (fst (check_user wallet_id w) = Returns {| is_contract_deployed := true |}
   <-> exists address : option string,
         fst (get_user_contract wallet_id w) = Returns address)
  /\ (fst (check_user wallet_id w) = Returns {| is_contract_deployed := false |} ->
      exists d : string, fst (get_user_contract wallet_id w) = HTTPException 404 d).
Proof.
  unfold check_user, get_user_contract. handler_cases; close_cases.
Qed.

End EveryWorld.

(** ** The further properties on examples *)

Lemma sum_token_amounts_other_price_witness :
  sum_token_amounts (<["BTC" := 60000]> {[ "ETH" := 3000; "USDC" := 1 ]}) 0
                    [("ETH", 2); ("USDC", 5)]
  = sum_token_amounts ({[ "ETH" := 3000; "USDC" := 1 ]} : gmap string Z) 0
                      [("ETH", 2); ("USDC", 5)].
Proof.
  apply sum_token_amounts_other_price; [discriminate | compute_done].
Defined.

Lemma add_token_raises_in_Decimal_witness :
  @add_token Z (option Z) IntegralDecimal.nullable_ops
             {[ "ETH" := None; "USDC" := Some 1 ]} 0 ("ETH", 2)
  = inl IntegralDecimal.Decimal_of_None
  /\ exists usdc_price : option Z,
       ({[ "ETH" := None; "USDC" := Some 1 ]} : gmap string (option Z)) !! "ETH"
       = Some usdc_price
       /\ @Decimal_of Z (option Z) IntegralDecimal.nullable_ops usdc_price
          = inl IntegralDecimal.Decimal_of_None.
Proof.
  assert (@add_token Z (option Z) IntegralDecimal.nullable_ops
                     {[ "ETH" := None; "USDC" := Some 1 ]} 0 ("ETH", 2)
          = inl IntegralDecimal.Decimal_of_None) as Hround by reflexivity.
  split; [exact Hround|].
  destruct (@add_token_raises_in_Decimal Z (option Z) IntegralDecimal.nullable_ops
              _ _ _ _ _ Hround)
    as [[Husdc _] | [usdc_price [_ [Hprice Hraise]]]]; [discriminate Husdc|].
  exists usdc_price. split; [exact Hprice|].
  destruct Hraise as [Hof | [price [Hof _]]]; [exact Hof|].
  assert (usdc_price = None) as -> by (vm_compute in Hprice; congruence).
  discriminate Hof.
Defined.

Lemma sum_token_amounts_all_priced_witness :
  sum_token_amounts ({[ "ETH" := 3000; "USDC" := 1 ]} : gmap string Z) Decimal_0
                    [("ETH", 2); ("USDC", 5)]
  = inr 6005.
Proof.
  apply sum_token_amounts_all_priced; [repeat constructor | reflexivity].
Defined.
